(** * QuickChart request pipeline: a shallow embedding of [index.js] and [lib/qr.js]

    The development follows the source file by file.  JavaScript values that
    reach the handlers (query-string and body properties) are an inductive
    type; strings are byte strings holding the UTF-8 encoding of the
    JavaScript string; promises are results; the limiter's window store and
    the privileged key set are stdpp finite maps and sets. *)

From Stdlib Require Import ZArith Ascii String.
From stdpp Require Import base decidable option numbers list strings pretty gmap.

Local Open Scope string_scope.
Local Open Scope Z_scope.
Local Set Warnings "-register-all".

(** ** JavaScript values *)

Module Js.

(** A Number as far as this program produces one: [NaN], or the double
    nearest to an integer [z].  Every operation below ([truthy], [min])
    commutes with that rounding, and [Int z] is the integer itself when
    [|z| <= 2^53]. *)
Inductive number :=
| NaN
| Int (z : Z).

(** Values found in [req.query] (strings, arrays, objects, as [qs] builds
    them) and in [req.body] (any JSON value; numbers restricted to integers
    below 10^21 in magnitude, which print in plain decimal). *)
Inductive value :=
| Undefined
| Null
| Bool (b : bool)
| Num (n : number)
| Str (s : string)
| Arr (l : list value)
| Obj (l : list (string * value)).

#[global] Instance number_eq_dec : EqDecision number.
Proof. solve_decision. Defined.

(** [ToBoolean] *)
Definition num_truthy (n : number) : bool :=
  match n with
  | NaN => false
  | Int z => negb (z =? 0)
  end.

Definition truthy (v : value) : bool :=
  match v with
  | Undefined | Null => false
  | Bool b => b
  | Num n => num_truthy n
  | Str s => negb (String.eqb s "")
  | Arr _ | Obj _ => true
  end.

(** [a || b] on values and on numbers *)
Definition or (a b : value) : value := if truthy a then a else b.
Definition num_or (a b : number) : number := if num_truthy a then a else b.

(** [Math.min(a, b)] *)
Definition min (a b : number) : number :=
  match a, b with
  | Int x, Int y => Int (Z.min x y)
  | _, _ => NaN
  end.

Definition isNaN (n : number) : bool :=
  match n with NaN => true | Int _ => false end.

Definition num_to_string (n : number) : string :=
  match n with
  | NaN => "NaN"
  | Int z => pretty z
  end.

(** [ToString]: arrays join their elements with a comma, printing
    [undefined] and [null] elements as the empty string; plain objects print
    as [[object Object]].  This is the conversion for the values on which
    it completes, those of [stringifies] below: every value of [req.query]
    and of a urlencoded body, where [qs] drops the keys that shadow
    [Object.prototype].  An object of a JSON body with an own [toString]
    property makes the conversion throw, which [to_string] does not show. *)
Fixpoint to_string (v : value) : string :=
  match v with
  | Undefined => "undefined"
  | Null => "null"
  | Bool true => "true"
  | Bool false => "false"
  | Num n => num_to_string n
  | Str s => s
  | Arr l =>
      (fix join (l : list value) : string :=
         match l with
         | [] => ""
         | x :: r =>
             let e := match x with
                      | Undefined | Null => ""
                      | _ => to_string x
                      end in
             match r with
             | [] => e
             | _ :: _ => e +:+ "," +:+ join r
             end
         end) l
  | Obj _ => "[object Object]"
  end.

(** Whether [ToString] completes on a value.  An object with an own
    [toString] property, which is never callable in parsed JSON, is left
    with [Object.prototype.valueOf], which returns the object: a
    [TypeError].  An array throws when the conversion of an element does. *)
Fixpoint stringifies (v : value) : bool :=
  match v with
  | Arr l =>
      (fix all (l : list value) : bool :=
         match l with
         | [] => true
         | x :: r => stringifies x && all r
         end) l
  | Obj l => negb (existsb (fun kv => String.eqb (fst kv) "toString") l)
  | _ => true
  end.

(** *** [parseInt(v, 10)] *)

Definition code (c : ascii) : N := N_of_ascii c.

(** One-byte [StrWhiteSpaceChar]: TAB, LF, VT, FF, CR, SP. *)
Definition ws1 (a : ascii) : bool :=
  let n := code a in ((9 <=? n) && (n <=? 13))%N || (n =? 32)%N.

(** Two-byte: U+00A0. *)
Definition ws2 (a b : ascii) : bool :=
  ((code a =? 194) && (code b =? 160))%N.

(** Three-byte: U+1680, U+2000..U+200A, U+2028, U+2029, U+202F, U+205F,
    U+3000, U+FEFF. *)
Definition ws3 (a b c : ascii) : bool :=
  let x := code a in let y := code b in let z := code c in
  (((x =? 225) && (y =? 154) && (z =? 128))
   || ((x =? 226) && (y =? 128)
       && (((128 <=? z) && (z <=? 138)) || (z =? 168) || (z =? 169) || (z =? 175)))
   || ((x =? 226) && (y =? 129) && (z =? 159))
   || ((x =? 227) && (y =? 128) && (z =? 128))
   || ((x =? 239) && (y =? 187) && (z =? 191)))%N.

Fixpoint trim_start (s : string) : string :=
  match s with
  | EmptyString => s
  | String a r1 =>
      if ws1 a then trim_start r1 else
      match r1 with
      | EmptyString => s
      | String b r2 =>
          if ws2 a b then trim_start r2 else
          match r2 with
          | EmptyString => s
          | String c r3 => if ws3 a b c then trim_start r3 else s
          end
      end
  end.

Definition is_digit (c : ascii) : bool :=
  let n := code c in ((48 <=? n) && (n <=? 57))%N.

Definition digit_value (c : ascii) : Z := Z.of_N (code c) - 48.

(** The longest prefix of decimal digits, read as an integer; [None] when
    the prefix is empty. *)
Fixpoint leading_digits (s : string) (acc : option Z) : option Z :=
  match s with
  | String c r =>
      if is_digit c
      then leading_digits r (Some (10 * default 0 acc + digit_value c))
      else acc
  | EmptyString => acc
  end.

Definition parseInt_string (s : string) : number :=
  let t := trim_start s in
  let '(sign, body) :=
    match t with
    | String c r =>
        if (code c =? 45)%N then (-1, r)
        else if (code c =? 43)%N then (1, r)
        else (1, t)
    | EmptyString => (1, t)
    end in
  match leading_digits body None with
  | None => NaN
  | Some m => Int (sign * m)
  end.

Definition parseInt (v : value) : number := parseInt_string (to_string v).

(** [s.toLowerCase()], on the ASCII letters; the only use compares the
    result with ['pdf'], and no character outside ASCII lowers to one of
    [p], [d], [f]. *)
Definition lower_ascii (c : ascii) : ascii :=
  let n := code c in
  if ((65 <=? n) && (n <=? 90))%N then ascii_of_N (n + 32) else c.

Fixpoint toLowerCase (s : string) : string :=
  match s with
  | EmptyString => EmptyString
  | String c r => String (lower_ascii c) (toLowerCase r)
  end.

End Js.

(** ** Requests, responses and promises *)

Module Http.

Inductive method := GET | HEAD | POST | OTHER.

Definition Buffer := list Byte.byte.

(** A header written by [res.writeHead]: a string, or a number
    ([buf.length]). *)
Inductive header_value :=
| HStr (s : string)
| HNum (n : nat).

Record response := mkResponse {
  status : Z;
  headers : list (string * header_value);
  payload : Buffer
}.

(** A request after the query parser and the body parsers ran: [path] is
    the raw pathname, [query] is [req.query], [body] is [req.body], [ip]
    is the connection source the limiter buckets by. *)
Record request := mkRequest {
  verb : method;
  path : string;
  query : gmap string Js.value;
  body : gmap string Js.value;
  ip : string
}.

(** [o.k] on a parsed object: [undefined] when the property is absent. *)
Definition prop (o : gmap string Js.value) (k : string) : Js.value :=
  default Js.Undefined (o !! k).

(** An [Error] object and [Error.prototype.toString]. *)
Record error := mkError { name : string; message : string }.

Definition new_Error (m : string) : error := mkError "Error" m.

Definition error_to_string (e : error) : string :=
  if String.eqb (name e) "" then message e
  else if String.eqb (message e) "" then name e
  else name e +:+ ": " +:+ message e.

(** What a fail function is given as [msg]: a string literal or a caught
    error. *)
Inductive reason :=
| Text (s : string)
| Caught (e : error).

Definition reason_to_string (m : reason) : string :=
  match m with
  | Text s => s
  | Caught e => error_to_string e
  end.

(** A settled promise. *)
Inductive promise (A : Type) :=
| Resolved (a : A)
| Rejected (e : error).
Arguments Resolved {A} a.
Arguments Rejected {A} e.

(** What becomes of a request.  [Responded] is a response written by the
    code under study with [res.writeHead] and [res.end]; the other cases
    are left to middleware and to Express itself. *)
Inductive outcome :=
| Responded (r : response)
| Thrown                          (* a handler threw: Express's error handler *)
| ServedStatic                    (* express.static found a file *)
| RenderedIndex                   (* res.render('index') *)
| SentRobots                      (* res.sendFile(robots.txt) *)
| NotFound                        (* no route matched *)
| TooManyRequests (msg : string). (* the limiter's own 429 response *)

End Http.

Import Http.

(** ** [lib/qr.js] and the collaborators *)

Module Qr.

Record segment := mkSegment { data : string; mode : string }.

(** First argument of [qrcode.toString] / [qrcode.toDataURL]: a string, or
    an array of segments. *)
Inductive payload :=
| Plain (s : string)
| Segments (l : list segment).

Record color := mkColor { dark : Js.value; light : Js.value }.

Record options := mkOptions {
  margin : Js.number;
  width : Js.number;
  errorCorrectionLevel : Js.value;
  color_ : color;
  toSJISFunc : option (string -> option N)
}.

(** The library call [renderQr] makes. *)
Inductive call :=
| ToString (d : payload) (o : options)
| ToDataURL (d : payload) (o : options).

Definition call_payload (c : call) : payload :=
  match c with ToString d _ | ToDataURL d _ => d end.

Definition call_options (c : call) : options :=
  match c with ToString _ o | ToDataURL _ o => o end.

End Qr.

Record text2png_options := mkT2P { padding : Z; backgroundColor_ : string }.

(** The modules the two source files require and that are not part of
    them: the renderers, the PDF helpers, the key store, and the builtins
    whose results the code only passes on. *)
Class Collaborators := {
  (** [require('text2png')] *)
  text2png : string -> text2png_options -> Buffer;
  (** [./lib/pdf]: both are total, as [PdfFromText(message) -> bytes] and
      [PdfFromImage(bytes) -> bytes] *)
  getPdfBufferWithText : reason -> Buffer;
  getPdfBufferFromPng : Buffer -> Buffer;
  (** [./lib/charts]: [ChartRenderer(width, height, backgroundColor, spec)
      -> bytes | error] *)
  renderChart : Z -> Z -> Js.value -> Js.value -> promise Buffer;
  (** [require('qrcode')] and [qrcode/helper/to-sjis] *)
  qrcode_toString : Qr.payload -> Qr.options -> promise string;
  qrcode_toDataURL : Qr.payload -> Qr.options -> promise string;
  toSJIS : string -> option N;
  (** [./api_keys] *)
  apiKeys : gset string;
  (** [decodeURIComponent]: [None] is a thrown [URIError] *)
  decodeURIComponent : string -> option string;
  (** [Buffer.from(s, 'base64')], and the [TypeError] of
      [Buffer.from(undefined, 'base64')] *)
  from_base64 : string -> Buffer;
  buffer_from_undefined : error;
  (** whether [public/] holds a file for a pathname *)
  public_file : string -> bool
}.

Definition LF : string := String (ascii_of_N 10) "".

(** [s.split(',')[1]] *)
Fixpoint until_comma (s : string) : string :=
  match s with
  | EmptyString => EmptyString
  | String c r => if (Js.code c =? 44)%N then EmptyString else String c (until_comma r)
  end.

Fixpoint split_comma_1 (s : string) : option string :=
  match s with
  | EmptyString => None
  | String c r => if (Js.code c =? 44)%N then Some (until_comma r) else split_comma_1 r
  end.

Section QrLib.
Context `{Collaborators}.

(** [finalQrData] and [finalQrOpts], and the library function chosen by
    [format].  [finalQrOpts] is [qrOpts] itself, updated in place in the
    [sjis] branch; the caller builds [qrOpts] afresh for each request and
    does not read it again. *)
Definition renderQr_call (format : string) (mode : Js.value) (qrData : string)
    (qrOpts : Qr.options) : Qr.call :=
  let '(finalQrData, finalQrOpts) :=
    match mode with
    | Js.Str "sjis" =>
        (Qr.Segments [Qr.mkSegment qrData "kanji"],
         Qr.mkOptions (Qr.margin qrOpts) (Qr.width qrOpts)
           (Qr.errorCorrectionLevel qrOpts) (Qr.color_ qrOpts) (Some toSJIS))
    | _ => (Qr.Plain qrData, qrOpts)
    end in
  if String.eqb format "svg"
  then Qr.ToString finalQrData finalQrOpts
  else Qr.ToDataURL finalQrData finalQrOpts.

Definition qr_rejection (err : error) : error :=
  new_Error ("Could not generate QR" +:+ LF +:+ error_to_string err).

Definition renderQr (format : string) (mode : Js.value) (qrData : string)
    (qrOpts : Qr.options) : promise Buffer :=
  match renderQr_call format mode qrData qrOpts with
  | Qr.ToString d o =>
      match qrcode_toString d o with
      | Resolved str => Resolved (list_byte_of_string str)
      | Rejected err => Rejected (qr_rejection err)
      end
  | Qr.ToDataURL d o =>
      match qrcode_toDataURL d o with
      | Resolved dataUrl =>
          match split_comma_1 dataUrl with
          | Some b64 => Resolved (from_base64 b64)
          | None => Rejected (qr_rejection buffer_from_undefined)
          end
      | Rejected err => Rejected (qr_rejection err)
      end
  end.

End QrLib.

(** ** The rate limiter *)

Module Limiter.

Inductive decision := Allow | Reject.

(** One window per client identity. *)
Record RateWindow := mkWindow { windowStart : Z; count : nat }.

(** The options [index.js] passes to [rateLimit]; [onLimitReached] only
    logs and is left out. *)
Record options := mkOptions {
  windowMs : Z;
  max : Js.number;
  message : string;
  skip : request -> bool
}.

(** [count > limit] on Numbers: never true against [NaN]. *)
Definition exceeds (c : nat) (limit : Js.number) : bool :=
  match limit with
  | Js.Int m => m <? Z.of_nat c
  | Js.NaN => false
  end.

(** The window a hit at time [now] counts in: the stored one, or a fresh
    one when none is stored or the stored one has expired. *)
Definition current_window (o : options) (now : Z) (w : option RateWindow)
    : RateWindow :=
  match w with
  | Some w => if windowMs o <=? now - windowStart w then mkWindow now 0 else w
  | None => mkWindow now 0
  end.

(** Modelled from the spec: the middleware built by [express-rate-limit]'s
    [rateLimit(options)], whose code is not in the source files.  A request
    the [skip] option accepts is allowed without touching the store;
    otherwise the count of the caller's current window is incremented,
    after a reset when the window has expired, and the request is rejected
    when the incremented count exceeds the limit. *)
Definition check (o : options) (now : Z) (store : gmap string RateWindow)
    (req : request) : decision * gmap string RateWindow :=
  if skip o req then (Allow, store)
  else
    let w := current_window o now (store !! ip req) in
    let c := S (count w) in
    (if exceeds c (max o) then Reject else Allow,
     <[ip req := mkWindow (windowStart w) c]> store).

(** The count an identity has used in the window that is current at [now]. *)
Definition used (o : options) (now : Z) (store : gmap string RateWindow)
    (id : string) : nat :=
  count (current_window o now (store !! id)).

End Limiter.

(** ** Express path matching *)

(** A route path [pat] (no trailing slash) against a pathname, with the
    default settings: case-insensitive, one optional trailing slash. *)
Definition route_match (pat p : string) : bool :=
  let lp := Js.toLowerCase p in
  String.eqb lp pat || String.eqb lp (pat +:+ "/").

(** The route path ['/']. *)
Definition root_match (p : string) : bool :=
  String.eqb p "/" || String.eqb p "".

(** [rest] is what follows the mount path: empty, or starting a new
    segment. *)
Definition at_boundary (rest : string) : bool :=
  match rest with
  | EmptyString => true
  | String c _ => (Js.code c =? 47)%N
  end.

Fixpoint strip_prefix (pat p : string) : option string :=
  match pat, p with
  | EmptyString, _ => Some p
  | String a pat', String b p' =>
      if Ascii.eqb a b then strip_prefix pat' p' else None
  | String _ _, EmptyString => None
  end.

(** A mount path given to [app.use] against a pathname: a case-insensitive
    prefix that ends at a segment boundary. *)
Definition mount_match (pat p : string) : bool :=
  match strip_prefix pat (Js.toLowerCase p) with
  | Some rest => at_boundary rest
  | None => false
  end.

(** ** [index.js] *)

Record route_opts := mkRouteOpts {
  chart : Js.value;
  height : Js.value;
  width : Js.value;
  backgroundColor : Js.value
}.

Record render_opts := mkRenderOpts {
  params : route_opts;
  failFn : reason -> response;
  onRenderHandler : Buffer -> response
}.

Definition limiter_message : string :=
  "Please slow down your requests! This is a shared public endpoint. Email contact@quickchart.io for rate limit exceptions or to purchase a commercial license.".

Definition cache_1_week : string * header_value :=
  ("Cache-Control", HStr "public, max-age=604800").

(** [(v).toLowerCase()]: a [TypeError] ([None]) unless [v] is a string. *)
Definition call_toLowerCase (v : Js.value) : option string :=
  match v with
  | Js.Str s => Some (Js.toLowerCase s)
  | _ => None
  end.

Section Index.
Context `{Collaborators}.

(** [apiKeys.has(v)] *)
Definition apiKeys_has (v : Js.value) : bool :=
  match v with
  | Js.Str k => bool_decide (k ∈ apiKeys)
  | _ => false
  end.

(** Lines 45-51 *)
Definition skip (req : request) : bool :=
  if Js.truthy (prop (query req) "key")
  then apiKeys_has (prop (query req) "key")
  else false.

(** Lines 33-54: the limiter exists when [RATE_LIMIT_PER_MIN] is set and
    not empty. *)
Definition limiter (RATE_LIMIT_PER_MIN : option string) : option Limiter.options :=
  match RATE_LIMIT_PER_MIN with
  | Some s =>
      if Js.truthy (Js.Str s)
      then Some (Limiter.mkOptions (60 * 1000) (Js.parseInt (Js.Str s))
                   limiter_message skip)
      else None
  | None => None
  end.

Definition failPng (msg : reason) : response :=
  mkResponse 500 [("Content-Type", HStr "image/png")]
    (text2png ("Chart Error: " +:+ reason_to_string msg) (mkT2P 10 "#fff")).

Definition failPdf (msg : reason) : response :=
  let buf := getPdfBufferWithText msg in
  mkResponse 500 [("Content-Type", HStr "application/pdf")] buf.

(** Lines 127-140 and 151: the arguments [doRender] computes for
    [renderChart].  The integer of a dimension stands for the Number
    [parseInt] returns, which is that integer up to 2^53 in magnitude;
    [parseInt] throws where [Js.stringifies raw] is false, which
    [dimension] does not show. *)
Definition dimension (raw : Js.value) (dflt : Z) : Z :=
  if Js.truthy raw then
    match Js.parseInt raw with
    | Js.NaN => dflt
    | Js.Int n => n
    end
  else dflt.

Definition render_height (o : route_opts) : Z := dimension (height o) 300.
Definition render_width (o : route_opts) : Z := dimension (width o) 500.
Definition render_background (o : route_opts) : Js.value :=
  Js.or (backgroundColor o) (Js.Str "transparent").

Definition doRender (opts : render_opts) : response :=
  if negb (Js.truthy (chart (params opts)))
  then failFn opts (Text "You are missing variable `c` or `chart`")
  else
    let untrustedInput := chart (params opts) in
    match renderChart (render_width (params opts)) (render_height (params opts))
            (render_background (params opts)) untrustedInput with
    | Resolved buf => onRenderHandler opts buf
    | Rejected err => failFn opts (Caught err)
    end.

Definition doRenderChart (opts : route_opts) : response :=
  doRender (mkRenderOpts opts failPng (fun buf =>
    mkResponse 200
      [("Content-Type", HStr "image/png");
       ("Content-Length", HNum (length buf));
       cache_1_week]
      buf)).

Definition doRenderPdf (opts : route_opts) : response :=
  doRender (mkRenderOpts opts failPdf (fun buf =>
    let pdfBuf := getPdfBufferFromPng buf in
    mkResponse 200
      [("Content-Type", HStr "application/pdf");
       ("Content-Length", HNum (length pdfBuf));
       cache_1_week]
      pdfBuf)).

(** The body shared by [app.get('/chart')] (on [req.query]) and
    [app.post('/chart')] (on [req.body]). *)
Definition chart_opts (o : gmap string Js.value) : route_opts :=
  mkRouteOpts (Js.or (prop o "c") (prop o "chart"))
    (Js.or (prop o "h") (prop o "height"))
    (Js.or (prop o "w") (prop o "width"))
    (Js.or (prop o "backgroundColor") (prop o "bkg")).

Definition outputFormat (o : gmap string Js.value) : option string :=
  call_toLowerCase (Js.or (Js.or (prop o "f") (prop o "format")) (Js.Str "")).

Definition chart_route (o : gmap string Js.value) : outcome :=
  let opts := chart_opts o in
  match outputFormat o with
  | None => Thrown
  | Some f =>
      if String.eqb f "pdf"
      then Responded (doRenderPdf opts)
      else Responded (doRenderChart opts)
  end.

Definition get_chart (req : request) : outcome := chart_route (query req).
Definition post_chart (req : request) : outcome := chart_route (body req).

(** Lines 200-211 and 221-229 of [app.get('/qr')] *)
Definition qr_format (q : gmap string Js.value) : string :=
  match prop q "format" with
  | Js.Str "svg" => "svg"
  | _ => "png"
  end.

Definition qr_margin (q : gmap string Js.value) : Js.number :=
  Js.num_or (Js.parseInt (prop q "margin")) (Js.Int 4).

Definition qr_size (q : gmap string Js.value) : Js.number :=
  Js.num_or (Js.min (Js.Int 3000) (Js.parseInt (prop q "size"))) (Js.Int 150).

Definition qrOpts (q : gmap string Js.value) : Qr.options :=
  Qr.mkOptions (qr_margin q) (qr_size q)
    (Js.or (prop q "ecLevel") Js.Undefined)
    (Qr.mkColor (Js.or (prop q "dark") (Js.Str "000"))
                (Js.or (prop q "light") (Js.Str "fff")))
    None.

Definition get_qr (req : request) : outcome :=
  let q := query req in
  if negb (Js.truthy (prop q "text"))
  then Responded (failPng (Text "You are missing variable `text`"))
  else
    let format := qr_format q in
    let mode := prop q "mode" in
    match decodeURIComponent (Js.to_string (prop q "text")) with
    | None => Responded (failPng (Text "URI malformed"))
    | Some qrData =>
        match renderQr format mode qrData (qrOpts q) with
        | Resolved buf =>
            Responded (mkResponse 200
              [("Content-Type", HStr ("image/" +:+ format));
               ("Content-Length", HNum (length buf));
               cache_1_week]
              buf)
        | Rejected err => Responded (failPng (Caught err))
        end
    end.

(** The routes, in the order they are registered.  [app.get] also answers
    HEAD. *)
Definition routes (req : request) : outcome :=
  match verb req with
  | GET | HEAD =>
      if root_match (path req) then RenderedIndex
      else if route_match "/robots.txt" (path req) then SentRobots
      else if route_match "/chart" (path req) then get_chart req
      else if route_match "/qr" (path req) then get_qr req
      else NotFound
  | POST =>
      if route_match "/chart" (path req) then post_chart req else NotFound
  | OTHER => NotFound
  end.

(** [express.static('public')]: answers GET and HEAD for the files it has. *)
Definition static (req : request) : bool :=
  match verb req with
  | GET | HEAD => public_file (path req)
  | _ => false
  end.

(** The application: static files, then the limiter mounted on ['/chart']
    when there is one, then the routes.  The limiter's store is threaded
    through. *)
Definition app (RATE_LIMIT_PER_MIN : option string) (now : Z)
    (store : gmap string Limiter.RateWindow) (req : request)
    : outcome * gmap string Limiter.RateWindow :=
  if static req then (ServedStatic, store)
  else
    match limiter RATE_LIMIT_PER_MIN with
    | Some o =>
        if mount_match "/chart" (path req) then
          match Limiter.check o now store req with
          | (Limiter.Reject, store') =>
              (TooManyRequests (Limiter.message o), store')
          | (Limiter.Allow, store') => (routes req, store')
          end
        else (routes req, store)
    | None => (routes req, store)
    end.

End Index.

(** ** A sample deployment, for concrete runs *)

Definition sample : Collaborators := {|
  text2png := fun s _ => list_byte_of_string s;
  getPdfBufferWithText := fun m => list_byte_of_string ("%PDF " +:+ reason_to_string m);
  getPdfBufferFromPng := fun b => List.app (list_byte_of_string "%PDF ") b;
  renderChart := fun w h _ _ =>
    if (w <=? 0) || (h <=? 0)
    then Rejected (mkError "RangeError" "empty canvas")
    else Resolved (list_byte_of_string "PNG");
  qrcode_toString := fun _ _ => Resolved "<svg/>";
  qrcode_toDataURL := fun _ _ => Resolved "data:image/png;base64,iVBORw0KGgo=";
  toSJIS := fun _ => None;
  apiKeys := {[ "s3cret" ]};
  decodeURIComponent := Some;
  from_base64 := list_byte_of_string;
  buffer_from_undefined := mkError "TypeError" "The first argument must be a string";
  public_file := fun _ => false
|}.

(** The environment of the start script: [RATE_LIMIT_PER_MIN=240]. *)
Definition start_script_limit : option string := Some "240".

Definition qr_query_5000 : gmap string Js.value :=
  {[ "text" := Js.Str "hello"; "size" := Js.Str "5000" ]}.

Definition qr_query_3001 : gmap string Js.value :=
  {[ "text" := Js.Str "hello"; "size" := Js.Str "3001" ]}.

Definition qr_query_svg : gmap string Js.value :=
  {[ "text" := Js.Str "hello"; "format" := Js.Str "svg" ]}.

Definition qr_query_margin0 : gmap string Js.value :=
  {[ "text" := Js.Str "hello"; "margin" := Js.Str "0" ]}.

Definition qr_query_sjis : gmap string Js.value :=
  {[ "text" := Js.Str "hello"; "mode" := Js.Str "sjis" ]}.


Definition get_request (p : string) (q : gmap string Js.value) : request :=
  mkRequest GET p q ∅ "203.0.113.7".

Definition post_request (p : string) (b : gmap string Js.value) : request :=
  mkRequest POST p ∅ b "203.0.113.7".

(** A store in which the sample client has used its 240 requests, and a
    chart request carrying the privileged key in the query string or in the
    body. *)
Definition busy_store : gmap string Limiter.RateWindow :=
  {[ "203.0.113.7" := Limiter.mkWindow 0 240 ]}.

Definition key_in_query : request :=
  get_request "/chart" {[ "c" := Js.Str "{type:'bar'}"; "key" := Js.Str "s3cret" ]}.

Definition key_in_body : request :=
  post_request "/chart" {[ "c" := Js.Str "{type:'bar'}"; "key" := Js.Str "s3cret" ]}.

(** ** Observations used to state properties *)

(** The value a response carries for a header. *)
Fixpoint header (hs : list (string * header_value)) (h : string)
    : option header_value :=
  match hs with
  | [] => None
  | (k, v) :: r => if String.eqb k h then Some v else header r h
  end.

Definition content_type (r : response) : option header_value :=
  header (headers r) "Content-Type".

(** A string without a comma. *)
Fixpoint comma_free (s : string) : bool :=
  match s with
  | EmptyString => true
  | String c r => negb (Js.code c =? 44)%N && comma_free r
  end.

(** The pairs of parameter names a chart request may use, the one read
    first on the left. *)
Definition chart_aliases : list (string * string) :=
  [("c", "chart"); ("h", "height"); ("w", "width");
   ("backgroundColor", "bkg"); ("f", "format")].

Section Runs.
Context `{Collaborators}.

(** The promise of the library call [renderQr] makes. *)
Definition qrcode_run (c : Qr.call) : promise string :=
  match c with
  | Qr.ToString d o => qrcode_toString d o
  | Qr.ToDataURL d o => qrcode_toDataURL d o
  end.

(** The library function [renderQr] calls for a format, and what its
    [then] and [catch] handlers make of the promise. *)
Definition qrcode_call (format : string) (d : Qr.payload) (o : Qr.options)
    : promise string :=
  if String.eqb format "svg" then qrcode_toString d o else qrcode_toDataURL d o.

Definition settle (format : string) (p : promise string) : promise Buffer :=
  match p with
  | Rejected err => Rejected (qr_rejection err)
  | Resolved str =>
      if String.eqb format "svg" then Resolved (list_byte_of_string str)
      else match split_comma_1 str with
           | Some b64 => Resolved (from_base64 b64)
           | None => Rejected (qr_rejection buffer_from_undefined)
           end
  end.

(** Requests served one after the other, each at its arrival time, with
    the limiter's store passed along; the outcomes in order, and the final
    store. *)
Fixpoint serve (RATE_LIMIT_PER_MIN : option string)
    (store : gmap string Limiter.RateWindow) (reqs : list (Z * request))
    : list outcome * gmap string Limiter.RateWindow :=
  match reqs with
  | [] => ([], store)
  | (now, req) :: rest =>
      let '(out, store') := app RATE_LIMIT_PER_MIN now store req in
      let '(outs, store'') := serve RATE_LIMIT_PER_MIN store' rest in
      (out :: outs, store'')
  end.

End Runs.

(** More sample requests. *)
Definition chart_query_png : gmap string Js.value :=
  {[ "c" := Js.Str "{type:'bar'}"; "f" := Js.Str "png" ]}.


Definition chart_query_no_chart : gmap string Js.value :=
  {[ "c" := Js.Str ""; "f" := Js.Str "pdf" ]}.


Definition chart_query_array_format : gmap string Js.value :=
  {[ "c" := Js.Str "{type:'bar'}"; "f" := Js.Arr [Js.Str "pdf"] ]}.


Definition qr_query_text_only : gmap string Js.value :=
  {[ "text" := Js.Str "hello" ]}.

Definition qr_query_negative : gmap string Js.value :=
  {[ "text" := Js.Str "hello"; "size" := Js.Str "-20" ]}.

Definition qr_query_upper_svg : gmap string Js.value :=
  {[ "text" := Js.Str "hello"; "format" := Js.Str "SVG"; "mode" := Js.Str "SJIS" ]}.

Definition chart_body_object_height : gmap string Js.value :=
  {[ "c" := Js.Str "{type:'bar'}";
     "h" := Js.Obj [("toString", Js.Num (Js.Int 1))] ]}.

Definition describe_payload (d : Qr.payload) (o : Qr.options) : string :=
  match d with
  | Qr.Plain s => "plain:" +:+ s
  | Qr.Segments l =>
      "segments:" +:+ String.concat ";" (map (λ g, Qr.mode g +:+ ":" +:+ Qr.data g) l)
  end
  +:+ match Qr.toSJISFunc o with Some _ => "+sjis" | None => "" end.

(** A deployment whose QR library returns a description of what it was
    given. *)
Definition echoing : Collaborators := {|
  text2png := fun s _ => list_byte_of_string s;
  getPdfBufferWithText := fun m => list_byte_of_string (reason_to_string m);
  getPdfBufferFromPng := fun b => b;
  renderChart := fun _ _ _ _ => Resolved (list_byte_of_string "PNG");
  qrcode_toString := fun d o => Resolved (describe_payload d o);
  qrcode_toDataURL := fun d o => Resolved ("data:," +:+ describe_payload d o);
  toSJIS := fun _ => None;
  apiKeys := ∅;
  decodeURIComponent := Some;
  from_base64 := list_byte_of_string;
  buffer_from_undefined := mkError "TypeError" "The first argument must be a string";
  public_file := fun _ => false
|}.

(** A deployment whose decoder and QR library fail. *)
Definition failing : Collaborators := {|
  text2png := fun s _ => list_byte_of_string s;
  getPdfBufferWithText := fun m => list_byte_of_string (reason_to_string m);
  getPdfBufferFromPng := fun b => b;
  renderChart := fun _ _ _ _ => Rejected (mkError "SyntaxError" "Unexpected token");
  qrcode_toString := fun _ _ => Rejected (mkError "Error" "No input text");
  qrcode_toDataURL := fun _ _ => Resolved "no comma here";
  toSJIS := fun _ => None;
  apiKeys := {[ "" ]};
  decodeURIComponent := fun s => if String.eqb s "%" then None else Some s;
  from_base64 := list_byte_of_string;
  buffer_from_undefined := mkError "TypeError" "The first argument must be a string";
  public_file := fun p => String.eqb p "/favicon.ico"
|}.

(** ** Properties *)

Example parseInt_5000 : Js.parseInt (Js.Str "5000") = Js.Int 5000.
Proof. reflexivity. Qed.
Example parseInt_px : Js.parseInt (Js.Str "  -12px") = Js.Int (-12).
Proof. reflexivity. Qed.
Example parseInt_undefined : Js.parseInt Js.Undefined = Js.NaN.
Proof. reflexivity. Qed.
Example parseInt_arr : Js.parseInt (Js.Arr [Js.Str "200"; Js.Str "7"]) = Js.Int 200.
Proof. reflexivity. Qed.
Example parseInt_num : Js.parseInt (Js.Num (Js.Int 640)) = Js.Int 640.
Proof. vm_compute. reflexivity. Qed.
Example to_string_negative : Js.to_string (Js.Num (Js.Int (-42))) = "-42".
Proof. vm_compute. reflexivity. Qed.
Example lower_PDF : Js.toLowerCase "PdF" = "pdf".
Proof. reflexivity. Qed.
Example split_data_url : split_comma_1 "data:image/png;base64,AAAA" = Some "AAAA".
Proof. reflexivity. Qed.
Example qr_size_3000 : qr_size {[ "size" := Js.Str "3000" ]} = Js.Int 3000.
Proof. vm_compute. reflexivity. Qed.
Example qr_size_3001 : qr_size {[ "size" := Js.Str "3001" ]} = Js.Int 3000.
Proof. vm_compute. reflexivity. Qed.
Example qr_size_0 : qr_size {[ "size" := Js.Str "0" ]} = Js.Int 150.
Proof. vm_compute. reflexivity. Qed.
Example qr_size_absent : qr_size ∅ = Js.Int 150.
Proof. vm_compute. reflexivity. Qed.
Example qr_margin_7 : qr_margin {[ "margin" := Js.Str "7" ]} = Js.Int 7.
Proof. vm_compute. reflexivity. Qed.
Example mount_chart_sub : mount_match "/chart" "/Chart/x" = true.
Proof. reflexivity. Qed.
Example mount_chartx : mount_match "/chart" "/chartx" = false.
Proof. reflexivity. Qed.

(** *** Numbers and defaults *)

Lemma num_or_NaN d : Js.num_or Js.NaN d = d.
Proof. reflexivity. Qed.

Lemma num_or_zero d : Js.num_or (Js.Int 0) d = d.
Proof. reflexivity. Qed.

Lemma num_or_nonzero n d : n ≠ 0 → Js.num_or (Js.Int n) d = Js.Int n.
Proof.
  intros Hn. unfold Js.num_or, Js.num_truthy.
  destruct (Z.eqb_spec n 0) as [->|_]; [contradiction | reflexivity].
Qed.

(** The size is 150 when the parameter does not parse or parses to zero,
    and the smaller of 3000 and the parsed integer otherwise. *)
Lemma qr_size_cases q :
  qr_size q =
    match Js.parseInt (prop q "size") with
    | Js.NaN => Js.Int 150
    | Js.Int n => if n =? 0 then Js.Int 150 else Js.Int (Z.min 3000 n)
    end.
Proof.
  unfold qr_size. destruct (Js.parseInt (prop q "size")) as [|n]; simpl.
  - reflexivity.
  - destruct (Z.eqb_spec n 0) as [->|Hn]; [reflexivity|].
    apply num_or_nonzero. lia.
Qed.

(** The margin is the parsed integer unless that is zero. *)
Lemma qr_margin_nonzero q n :
  Js.parseInt (prop q "margin") = Js.Int n → n ≠ 0 → qr_margin q = Js.Int n.
Proof. intros Hp Hn. unfold qr_margin. rewrite Hp. by apply num_or_nonzero. Qed.

Lemma qr_margin_unparsable q :
  Js.parseInt (prop q "margin") = Js.NaN → qr_margin q = Js.Int 4.
Proof. intros Hp. unfold qr_margin. by rewrite Hp. Qed.

(** C1, as stated, fails: a size parameter that parses to 5000 gives the
    QR options the width 3000, not 150, and so does 3001. *)
Lemma qr_size_5000_is_not_150 :
  Js.parseInt (prop qr_query_5000 "size") = Js.Int 5000
  ∧ Qr.width (qrOpts qr_query_5000) = Js.Int 3000
  ∧ Qr.width (qrOpts qr_query_5000) ≠ Js.Int 150
  ∧ Qr.width (qrOpts qr_query_3001) ≠ Js.Int 150.
Proof. vm_compute. repeat split; congruence. Qed.

(** C1, amended: when the size parameter parses to an integer of at least
    3000 (5000, 3000 and 3001 among them), the size handed to the QR
    renderer is 3000. *)
Theorem qr_size_clamped q n :
  Js.parseInt (prop q "size") = Js.Int n → 3000 <= n →
  Qr.width (qrOpts q) = Js.Int 3000.
Proof.
  intros Hp Hn. simpl. rewrite qr_size_cases, Hp.
  destruct (Z.eqb_spec n 0); [lia|]. f_equal. lia.
Qed.

Lemma qr_size_clamped_5000 :
  Js.parseInt (prop qr_query_5000 "size") = Js.Int 5000
  ∧ Qr.width (qrOpts qr_query_5000) = Js.Int 3000.
Proof.
  split; [vm_compute; reflexivity|].
  apply (qr_size_clamped qr_query_5000 5000); [vm_compute; reflexivity | lia].
Defined.

(** C8 at the failing input: a margin parameter that parses to 0 gives the
    QR options the margin 4. *)
Theorem qr_margin_zero_defaults q :
  Js.parseInt (prop q "margin") = Js.Int 0 →
  Qr.margin (qrOpts q) = Js.Int 4.
Proof. intros Hp. simpl. unfold qr_margin. by rewrite Hp. Qed.

Lemma qr_margin_zero_defaults_at_0 :
  Js.parseInt (prop qr_query_margin0 "margin") = Js.Int 0
  ∧ Qr.margin (qrOpts qr_query_margin0) = Js.Int 4.
Proof.
  split; [vm_compute; reflexivity|].
  apply (qr_margin_zero_defaults qr_query_margin0). vm_compute. reflexivity.
Defined.

(** The sibling path: [doRender] keeps a height or width that parses to 0. *)
Lemma dimension_keeps_zero raw dflt :
  Js.truthy raw = true → Js.parseInt raw = Js.Int 0 → dimension raw dflt = 0.
Proof. intros Ht Hp. unfold dimension. by rewrite Ht, Hp. Qed.

Section QrProperties.
Context `{Collaborators}.

Lemma prop_absent (o : gmap string Js.value) k :
  o !! k = None → prop o k = Js.Undefined.
Proof. intros Hk. unfold prop. by rewrite Hk. Qed.

(** C5: a [/qr] request without a [text] parameter is answered with status
    500, content type [image/png], and the image [text2png] draws of the
    error text. *)
Theorem qr_missing_text req :
  query req !! "text" = None →
  get_qr req =
    Responded (mkResponse 500 [("Content-Type", HStr "image/png")]
      (text2png "Chart Error: You are missing variable `text`" (mkT2P 10 "#fff"))).
Proof. intros Ht. unfold get_qr. by rewrite (prop_absent _ _ Ht). Qed.

(** C6 on the code: a successful [/qr] request with [format=svg] is written
    with content type [image/svg]; the cache header and the content length
    are as the claim has them. *)
Theorem qr_svg_headers req qrData buf :
  Js.truthy (prop (query req) "text") = true →
  prop (query req) "format" = Js.Str "svg" →
  decodeURIComponent (Js.to_string (prop (query req) "text")) = Some qrData →
  renderQr "svg" (prop (query req) "mode") qrData (qrOpts (query req)) = Resolved buf →
  get_qr req =
    Responded (mkResponse 200
      [("Content-Type", HStr "image/svg");
       ("Content-Length", HNum (length buf));
       ("Cache-Control", HStr "public, max-age=604800")]
      buf).
Proof.
  intros Ht Hf Hd Hr. unfold get_qr, qr_format.
  rewrite Ht, Hf, Hd. simpl. by rewrite Hr.
Qed.

Lemma mode_not_sjis format mode qrData o :
  mode ≠ Js.Str "sjis" →
  renderQr_call format mode qrData o =
    if String.eqb format "svg"
    then Qr.ToString (Qr.Plain qrData) o
    else Qr.ToDataURL (Qr.Plain qrData) o.
Proof.
  intros Hm. unfold renderQr_call.
  destruct mode as [| |b|n|s|l|l]; try reflexivity.
  destruct (String.eqb_spec s "sjis") as [->|Hs]; [congruence|].
  repeat (match goal with
          | |- context [match ?x with _ => _ end] =>
              match type of x with
              | string => destruct x
              | ascii => destruct x
              | bool => destruct x
              end
          end; try reflexivity; try congruence).
Qed.

(** C7: with [mode=sjis], [renderQr] settles as the QR library does when
    it is called with the text as one segment of mode [kanji] and with
    [toSJISFunc] set to the SJIS helper; with any other mode it settles as
    the library does when called with the text itself and the options of
    the request, which carry no [toSJISFunc]. *)
Theorem qr_mode_payload q qrData :
  let format := qr_format q in
  let o := qrOpts q in
  (prop q "mode" = Js.Str "sjis" →
     renderQr format (prop q "mode") qrData o =
       settle format
         (qrcode_call format (Qr.Segments [Qr.mkSegment qrData "kanji"])
            (Qr.mkOptions (Qr.margin o) (Qr.width o) (Qr.errorCorrectionLevel o)
               (Qr.color_ o) (Some toSJIS))))
  ∧ (prop q "mode" ≠ Js.Str "sjis" →
     renderQr format (prop q "mode") qrData o =
       settle format (qrcode_call format (Qr.Plain qrData) o)
     ∧ Qr.toSJISFunc o = None).
Proof.
  simpl. split.
  - intros Hm. rewrite Hm. unfold renderQr, renderQr_call, settle, qrcode_call.
    destruct (String.eqb (qr_format q) "svg").
    + by destruct (qrcode_toString _ _).
    + by destruct (qrcode_toDataURL _ _).
  - intros Hm. split; [|reflexivity].
    unfold renderQr. rewrite (mode_not_sjis _ _ _ _ Hm).
    unfold settle, qrcode_call.
    destruct (String.eqb (qr_format q) "svg").
    + by destruct (qrcode_toString _ _).
    + by destruct (qrcode_toDataURL _ _).
Qed.

End QrProperties.

Lemma qr_missing_text_sample :
  query (get_request "/qr" ∅) !! "text" = None
  ∧ @get_qr sample (get_request "/qr" ∅) =
      Responded (mkResponse 500 [("Content-Type", HStr "image/png")]
        (list_byte_of_string "Chart Error: You are missing variable `text`")).
Proof.
  split; [reflexivity|].
  apply (@qr_missing_text sample (get_request "/qr" ∅)). reflexivity.
Defined.

Lemma qr_svg_headers_sample :
  @get_qr sample (get_request "/qr" qr_query_svg) =
    Responded (mkResponse 200
      [("Content-Type", HStr "image/svg");
       ("Content-Length", HNum 6);
       ("Cache-Control", HStr "public, max-age=604800")]
      (list_byte_of_string "<svg/>")).
Proof.
  apply (@qr_svg_headers sample (get_request "/qr" qr_query_svg) "hello"
           (list_byte_of_string "<svg/>")); vm_compute; reflexivity.
Defined.

Lemma qr_mode_payload_sample :
  @renderQr echoing (qr_format qr_query_sjis) (prop qr_query_sjis "mode") "hello"
    (qrOpts qr_query_sjis)
  = Resolved (list_byte_of_string "segments:kanji:hello+sjis")
  ∧ @renderQr echoing (qr_format qr_query_svg) (prop qr_query_svg "mode") "hello"
      (qrOpts qr_query_svg)
    = Resolved (list_byte_of_string "plain:hello").
Proof.
  split.
  - apply (proj1 (@qr_mode_payload echoing qr_query_sjis "hello")).
    vm_compute. reflexivity.
  - apply (proj2 (@qr_mode_payload echoing qr_query_svg "hello")).
    vm_compute. congruence.
Defined.

(** *** Chart rendering *)

Section ChartProperties.
Context `{Collaborators}.

(** A request for a missing chart fails through the fail function of its
    format. *)
Lemma doRender_missing_chart opts :
  Js.truthy (chart (params opts)) = false →
  doRender opts = failFn opts (Text "You are missing variable `c` or `chart`").
Proof. intros Hc. unfold doRender. by rewrite Hc. Qed.




End ChartProperties.


(** *** Routing and the rate limiter *)

Lemma qr_route_off_chart_mount p :
  route_match "/qr" p = true → mount_match "/chart" p = false.
Proof.
  unfold route_match, mount_match. intros Hm.
  apply orb_true_iff in Hm as [Hm|Hm]; apply String.eqb_eq in Hm;
    rewrite Hm; reflexivity.
Qed.

Lemma chart_route_on_chart_mount p :
  route_match "/chart" p = true → mount_match "/chart" p = true.
Proof.
  unfold route_match, mount_match. intros Hm.
  apply orb_true_iff in Hm as [Hm|Hm]; apply String.eqb_eq in Hm;
    rewrite Hm; reflexivity.
Qed.

Section LimiterProperties.
Context `{Collaborators}.

(** What [index.js] configures when it configures a limiter. *)
Lemma limiter_options env o :
  limiter env = Some o →
  ∃ s, env = Some s ∧ s ≠ ""
       ∧ o = Limiter.mkOptions 60000 (Js.parseInt (Js.Str s)) limiter_message skip.
Proof.
  unfold limiter. destruct env as [s|]; [|done].
  destruct (Js.truthy (Js.Str s)) eqn:Ht; [|done].
  intros [= <-]. exists s. repeat split.
  intros ->. discriminate.
Qed.

Lemma skip_privileged req k :
  prop (query req) "key" = Js.Str k → k ≠ "" → k ∈ apiKeys → skip req = true.
Proof.
  intros Hq Hk Hin. unfold skip. rewrite Hq. simpl.
  destruct (String.eqb_spec k ""); [contradiction|]. simpl.
  by apply bool_decide_eq_true.
Qed.

Lemma skip_without_query_key req :
  query req !! "key" = None → skip req = false.
Proof. intros Hq. unfold skip, prop. by rewrite Hq. Qed.

(** A skipped request leaves the store as it is. *)
Lemma check_skipped o now store req :
  Limiter.skip o req = true →
  Limiter.check o now store req = (Limiter.Allow, store).
Proof. intros Hs. unfold Limiter.check. by rewrite Hs. Qed.

(** A request that is not skipped takes one unit of the caller's window. *)
Lemma check_counted o now store req :
  Limiter.skip o req = false → 0 < Limiter.windowMs o →
  let r := Limiter.check o now store req in
  Limiter.used o now (snd r) (ip req) = S (Limiter.used o now store (ip req))
  ∧ fst r = (if Limiter.exceeds (S (Limiter.used o now store (ip req))) (Limiter.max o)
             then Limiter.Reject else Limiter.Allow).
Proof.
  intros Hs Hw. unfold Limiter.check. rewrite Hs. simpl. split; [|done].
  unfold Limiter.used. rewrite lookup_insert_eq.
  unfold Limiter.current_window at 1. simpl.
  destruct (store !! ip req) as [w|]; simpl.
  - destruct (Z.leb_spec (Limiter.windowMs o) (now - Limiter.windowStart w)); simpl.
    + destruct (Z.leb_spec (Limiter.windowMs o) (now - now)); [lia|done].
    + destruct (Z.leb_spec (Limiter.windowMs o) (now - Limiter.windowStart w));
        [lia|done].
  - destruct (Z.leb_spec (Limiter.windowMs o) (now - now)); [lia|done].
Qed.

(** Without a limiter the store is never touched and nothing is rejected. *)
Lemma app_unlimited now store req :
  snd (app None now store req) = store
  ∧ ∀ msg, fst (app None now store req) ≠ TooManyRequests msg.
Proof.
  unfold app. simpl. destruct (static req); simpl; [by split|].
  split; [done|]. intros msg. unfold routes, get_chart, post_chart, chart_route, get_qr.
  repeat (match goal with
          | |- context [match ?x with _ => _ end] => destruct x
          end; simpl; try discriminate).
Qed.

End LimiterProperties.

Section AdmissionProperties.
Context `{Collaborators}.

(** C2: a request whose query string carries a key of the privileged set
    is allowed by the limiter whatever the store holds, and the store,
    with every window count in it, is left as it was; the application
    answers it as it would without a limiter. *)
Theorem privileged_key_bypasses env now store req k :
  prop (query req) "key" = Js.Str k → k ≠ "" → k ∈ apiKeys →
  (∀ o, limiter env = Some o →
        Limiter.check o now store req = (Limiter.Allow, store))
  ∧ app env now store req = app None now store req
  ∧ snd (app env now store req) = store.
Proof.
  intros Hq Hk Hin.
  assert (Hs : skip req = true) by by apply (skip_privileged req k).
  assert (Hc : ∀ o, limiter env = Some o →
                    Limiter.check o now store req = (Limiter.Allow, store)).
  { intros o Ho. apply limiter_options in Ho as (s & _ & _ & ->).
    by apply check_skipped. }
  assert (He : app env now store req = app None now store req).
  { unfold app at 1. destruct (limiter env) as [o|]; [|reflexivity].
    rewrite (Hc o eq_refl). unfold app. simpl.
    destruct (static req); [done|]. by destruct (mount_match "/chart" (path req)). }
  split; [exact Hc|]. split; [exact He|].
  rewrite He. apply app_unlimited.
Qed.

(** C3: a request on the [/qr] route is answered as it would be without a
    limiter, whatever the limit and the store: the store is unchanged and
    the answer is never the limiter's rejection. *)
Theorem qr_not_rate_limited env now store req :
  route_match "/qr" (path req) = true →
  app env now store req = app None now store req
  ∧ snd (app env now store req) = store
  ∧ ∀ msg, fst (app env now store req) ≠ TooManyRequests msg.
Proof.
  intros Hp.
  assert (He : app env now store req = app None now store req).
  { unfold app. rewrite (qr_route_off_chart_mount _ Hp).
    by destruct (limiter env). }
  rewrite He. split; [done|]. apply app_unlimited.
Qed.

(** C9: a POST to [/chart] that carries a privileged key in its body and
    no key in its query string is not skipped by the limiter: it takes one
    unit of the caller's window, and it is rejected when the window has
    already reached the limit. *)
Theorem body_key_does_not_bypass env o now store req k :
  limiter env = Some o →
  verb req = POST → route_match "/chart" (path req) = true →
  query req !! "key" = None →
  prop (body req) "key" = Js.Str k → k ∈ apiKeys →
  Limiter.skip o req = false
  ∧ Limiter.used o now (snd (app env now store req)) (ip req)
    = S (Limiter.used o now store (ip req))
  ∧ (∀ m, Limiter.max o = Js.Int m →
          m <= Z.of_nat (Limiter.used o now store (ip req)) →
          fst (app env now store req) = TooManyRequests limiter_message).
Proof.
  intros Ho Hv Hp Hq _ _.
  pose proof (skip_without_query_key req Hq) as Hs.
  destruct (limiter_options _ _ Ho) as (s & _ & _ & Heq).
  assert (Hso : Limiter.skip o req = false) by by rewrite Heq.
  assert (Hw : 0 < Limiter.windowMs o) by by rewrite Heq.
  destruct (check_counted o now store req Hso Hw) as [Hu Hd].
  assert (Ha : app env now store req =
               match Limiter.check o now store req with
               | (Limiter.Reject, store') => (TooManyRequests (Limiter.message o), store')
               | (Limiter.Allow, store') => (routes req, store')
               end).
  { unfold app, static. by rewrite Hv, Ho, (chart_route_on_chart_mount _ Hp). }
  split; [exact Hso|]. rewrite Ha.
  destruct (Limiter.check o now store req) as [d store'] eqn:Hc. simpl in Hu, Hd.
  split.
  - by destruct d.
  - intros m Hm Hle. rewrite Hd. unfold Limiter.exceeds. rewrite Hm.
    destruct (Z.ltb_spec m (Z.of_nat (S (Limiter.used o now store (ip req)))));
      [|lia].
    simpl. by rewrite Heq.
Qed.

End AdmissionProperties.

Lemma privileged_key_bypasses_sample :
  fst (@app sample start_script_limit 1000 busy_store key_in_query)
    = fst (@app sample None 1000 busy_store key_in_query)
  ∧ snd (@app sample start_script_limit 1000 busy_store key_in_query) = busy_store.
Proof.
  destruct (@privileged_key_bypasses sample start_script_limit 1000 busy_store
              key_in_query "s3cret") as (_ & He & Hs).
  - vm_compute. reflexivity.
  - discriminate.
  - vm_compute. reflexivity.
  - split; [by rewrite He | exact Hs].
Defined.

Lemma qr_not_rate_limited_sample :
  snd (@app sample start_script_limit 1000 busy_store
         (get_request "/qr" qr_query_svg)) = busy_store.
Proof.
  apply (@qr_not_rate_limited sample start_script_limit 1000 busy_store
           (get_request "/qr" qr_query_svg)).
  vm_compute. reflexivity.
Defined.

Lemma body_key_does_not_bypass_sample :
  fst (@app sample start_script_limit 1000 busy_store key_in_body)
    = TooManyRequests limiter_message.
Proof.
  apply (@body_key_does_not_bypass sample start_script_limit
           (Limiter.mkOptions 60000 (Js.Int 240) limiter_message (@skip sample))
           1000 busy_store key_in_body "s3cret") with (m := 240).
  - reflexivity.
  - reflexivity.
  - vm_compute. reflexivity.
  - vm_compute. reflexivity.
  - vm_compute. reflexivity.
  - vm_compute. reflexivity.
  - reflexivity.
  - vm_compute. discriminate.
Defined.

(** ** Further properties of the chart path *)

Lemma prop_insert_ne (o : gmap string Js.value) k k' v :
  k ≠ k' → prop (<[k:=v]> o) k' = prop o k'.
Proof. intros Hk. unfold prop. by rewrite lookup_insert_ne. Qed.

Lemma or_truthy a b : Js.truthy a = true → Js.or a b = a.
Proof. intros Ha. unfold Js.or. by rewrite Ha. Qed.

Lemma or_falsy a b : Js.truthy a = false → Js.or a b = b.
Proof. intros Ha. unfold Js.or. by rewrite Ha. Qed.

Section ChartCoverage.
Context `{Collaborators}.




(** X3: a chart request in which neither [c] nor [chart] is truthy is
    answered 500 without rendering: as a PDF of the message for the [pdf]
    format, as an image of ["Chart Error: "] and the message otherwise. *)
Theorem chart_missing_definition o f :
  outputFormat o = Some f →
  Js.truthy (prop o "c") = false → Js.truthy (prop o "chart") = false →
  chart_route o =
    Responded
      (if String.eqb f "pdf"
       then mkResponse 500 [("Content-Type", HStr "application/pdf")]
              (getPdfBufferWithText (Text "You are missing variable `c` or `chart`"))
       else mkResponse 500 [("Content-Type", HStr "image/png")]
              (text2png "Chart Error: You are missing variable `c` or `chart`"
                 (mkT2P 10 "#fff"))).
Proof.
  intros Hf Hc Hchart. unfold chart_route. rewrite Hf.
  assert (Hm : Js.truthy (chart (chart_opts o)) = false).
  { simpl. by rewrite (or_falsy _ _ Hc). }
  unfold doRenderPdf, doRenderChart.
  destruct (String.eqb f "pdf"); by rewrite doRender_missing_chart.
Qed.




(** X7: of each pair of parameter names, the second is read only when the
    first is falsy: with a truthy first, setting the second to any value
    does not change the handler's result. *)
Theorem chart_first_name_wins o first second v :
  In (first, second) chart_aliases →
  Js.truthy (prop o first) = true →
  chart_route (<[second := v]> o) = chart_route o.
Proof.
  intros Hin Ht. unfold chart_route, outputFormat, chart_opts.
  simpl in Hin.
  destruct Hin as [[= <- <-]|[[= <- <-]|[[= <- <-]|[[= <- <-]|[[= <- <-]|[]]]]]];
    repeat match goal with
           | |- context [prop (<[?k := v]> o) ?k'] =>
               rewrite (prop_insert_ne o k k' v) by done
           end;
    rewrite (or_truthy _ (prop (<[_ := v]> o) _) Ht);
    by rewrite (or_truthy _ (prop o _) Ht).
Qed.


End ChartCoverage.



Lemma chart_missing_definition_sample :
  @post_chart sample (post_request "/chart" chart_query_no_chart) =
    Responded (mkResponse 500 [("Content-Type", HStr "application/pdf")]
      (list_byte_of_string "%PDF You are missing variable `c` or `chart`")).
Proof.
  apply (@chart_missing_definition sample chart_query_no_chart "pdf");
    vm_compute; reflexivity.
Defined.




Lemma chart_first_name_wins_sample :
  @chart_route sample (<["chart" := Js.Str "{type:'pie'}"]> chart_query_png)
  = @chart_route sample chart_query_png.
Proof.
  apply (@chart_first_name_wins sample chart_query_png "c" "chart").
  - left. reflexivity.
  - vm_compute. reflexivity.
Defined.


(** A JSON body whose [h] is an object with an own [toString] is outside
    the requests these properties speak of. *)
Example body_object_height_does_not_stringify :
  Js.stringifies (height (chart_opts chart_body_object_height)) = false.
Proof. vm_compute. reflexivity. Qed.

(** An array-valued [f] makes the handler throw. *)
Example chart_array_format_throws :
  @chart_route sample chart_query_array_format = Thrown.
Proof. vm_compute. reflexivity. Qed.

(** ** Further properties of the QR path *)

Lemma length_list_byte_of_string s :
  length (list_byte_of_string s) = String.length s.
Proof.
  unfold list_byte_of_string. rewrite length_map.
  induction s as [|c s IH]; simpl; [reflexivity | by rewrite IH].
Qed.

Lemma until_comma_free b : comma_free b = true → until_comma b = b.
Proof.
  induction b as [|c b IH]; simpl; [done|].
  destruct (Js.code c =? 44)%N; simpl; [done|]. intros Hb. by rewrite IH.
Qed.

(** The part of a data URL after its only comma is what [split(',')[1]]
    returns. *)
Lemma split_comma_1_data_url a b :
  comma_free a = true → comma_free b = true →
  split_comma_1 (a +:+ "," +:+ b) = Some b.
Proof.
  intros Ha Hb. induction a as [|c a IH]; simpl.
  - by rewrite until_comma_free.
  - simpl in Ha. destruct (Js.code c =? 44)%N; simpl in Ha; [done|]. by apply IH.
Qed.

(** [split(',')[1]] is [undefined] exactly on a string without a comma. *)
Lemma split_comma_1_none_iff s :
  split_comma_1 s = None ↔ comma_free s = true.
Proof.
  induction s as [|c s IH]; simpl; [done|].
  destruct (Js.code c =? 44)%N; simpl; [split; discriminate | exact IH].
Qed.

Lemma qr_format_cases q :
  (qr_format q = "svg" ∧ prop q "format" = Js.Str "svg")
  ∨ (qr_format q = "png" ∧ prop q "format" ≠ Js.Str "svg").
Proof.
  unfold qr_format. destruct (prop q "format") as [| |b|n|s|l|l];
    try (right; split; [reflexivity | discriminate]).
  destruct (String.eqb_spec s "svg") as [->|Hs]; [by left|].
  right. split; [|congruence].
  repeat (match goal with
          | |- context [match ?x with _ => _ end] =>
              match type of x with
              | string => destruct x
              | ascii => destruct x
              | bool => destruct x
              end
          end; try reflexivity; try congruence).
Qed.

(** X9: the QR format is [svg] only for the literal value ["svg"] of the
    [format] parameter, and [png] for every other value, other spellings
    of it included. *)
Theorem qr_format_svg_iff q :
  (qr_format q = "svg" ↔ prop q "format" = Js.Str "svg")
  ∧ (qr_format q ≠ "svg" → qr_format q = "png").
Proof.
  destruct (qr_format_cases q) as [[Hf Hp]|[Hf Hp]]; rewrite Hf.
  - split; [by split | done].
  - split; [split; [discriminate | by intros ?] | done].
Qed.

(** X10: the margin and the size handed to the QR renderer are never
    [NaN] and never zero, and the size is at most 3000, whatever the
    request. *)
Theorem qr_options_bounds q :
  ∃ m s, Qr.margin (qrOpts q) = Js.Int m ∧ m ≠ 0
         ∧ Qr.width (qrOpts q) = Js.Int s ∧ s ≠ 0 ∧ s <= 3000.
Proof.
  assert (Hm : ∃ m, qr_margin q = Js.Int m ∧ m ≠ 0).
  { unfold qr_margin. destruct (Js.parseInt (prop q "margin")) as [|m].
    - by exists 4.
    - destruct (Z.eq_dec m 0) as [->|Hm]; [by exists 4|].
      exists m. by rewrite num_or_nonzero. }
  assert (Hs : ∃ s, qr_size q = Js.Int s ∧ s ≠ 0 ∧ s <= 3000).
  { rewrite qr_size_cases. destruct (Js.parseInt (prop q "size")) as [|s].
    - exists 150. repeat split; lia.
    - destruct (Z.eqb_spec s 0).
      + exists 150. repeat split; lia.
      + exists (Z.min 3000 s). repeat split; lia. }
  destruct Hm as (m & Hm & Hm0). destruct Hs as (s & Hs & Hs0 & Hs1).
  exists m, s. simpl. by rewrite Hm, Hs.
Qed.

(** X11: a size that parses to a non-zero integer of at most 3000 is used
    as it is; there is no lower bound, so a negative size reaches the
    renderer. *)
Theorem qr_size_kept q n :
  Js.parseInt (prop q "size") = Js.Int n → n ≠ 0 → n <= 3000 →
  Qr.width (qrOpts q) = Js.Int n.
Proof.
  intros Hp Hn Hle. simpl. rewrite qr_size_cases, Hp.
  destruct (Z.eqb_spec n 0); [contradiction|]. f_equal. lia.
Qed.

(** X12: a request that has none of the optional parameters gets margin
    4, size 150, no error-correction level, colours [000] on [fff], and no
    SJIS function. *)
Theorem qr_defaults (q : gmap string Js.value) :
  q !! "margin" = None → q !! "size" = None → q !! "ecLevel" = None →
  q !! "dark" = None → q !! "light" = None →
  qrOpts q =
    Qr.mkOptions (Js.Int 4) (Js.Int 150) Js.Undefined
      (Qr.mkColor (Js.Str "000") (Js.Str "fff")) None.
Proof.
  intros Hm Hs He Hd Hl. unfold qrOpts, qr_margin, qr_size, prop.
  by rewrite Hm, Hs, He, Hd, Hl.
Qed.

Section QrCoverage.
Context `{Collaborators}.

Lemma renderQr_call_format format mode qrData o :
  renderQr_call format mode qrData o =
    if String.eqb format "svg"
    then Qr.ToString (Qr.call_payload (renderQr_call format mode qrData o))
           (Qr.call_options (renderQr_call format mode qrData o))
    else Qr.ToDataURL (Qr.call_payload (renderQr_call format mode qrData o))
           (Qr.call_options (renderQr_call format mode qrData o)).
Proof.
  unfold renderQr_call.
  destruct (match mode with Js.Str "sjis" => _ | _ => _ end) as [d o'].
  by destruct (String.eqb format "svg").
Qed.

(** How [renderQr] settles, from how the library call settles. *)
Lemma renderQr_settles format mode qrData o :
  renderQr format mode qrData o =
    match qrcode_run (renderQr_call format mode qrData o) with
    | Rejected err => Rejected (qr_rejection err)
    | Resolved str =>
        if String.eqb format "svg" then Resolved (list_byte_of_string str)
        else match split_comma_1 str with
             | Some b64 => Resolved (from_base64 b64)
             | None => Rejected (qr_rejection buffer_from_undefined)
             end
    end.
Proof.
  unfold renderQr. rewrite (renderQr_call_format format mode qrData o).
  destruct (String.eqb format "svg"); simpl.
  - by destruct (qrcode_toString _ _).
  - by destruct (qrcode_toDataURL _ _).
Qed.

(** X13: every rejection of [renderQr] is a new [Error] whose message
    starts with ["Could not generate QR"] and a line feed; the library's
    own error is never passed on as it is. *)
Theorem renderQr_rejection_shape format mode qrData o e :
  renderQr format mode qrData o = Rejected e →
  name e = "Error" ∧ ∃ cause, message e = "Could not generate QR" +:+ LF +:+ cause.
Proof.
  rewrite renderQr_settles.
  destruct (qrcode_run _) as [str|err].
  - destruct (String.eqb format "svg"); [discriminate|].
    destruct (split_comma_1 str); [discriminate|].
    intros [= <-]. split; [reflexivity | by eexists].
  - intros [= <-]. split; [reflexivity | by eexists].
Qed.

(** X14: for the [svg] format the buffer is the text the library returned,
    byte for byte, so its length is the length of that text. *)
Theorem renderQr_svg_bytes mode qrData o str :
  qrcode_run (renderQr_call "svg" mode qrData o) = Resolved str →
  renderQr "svg" mode qrData o = Resolved (list_byte_of_string str)
  ∧ length (list_byte_of_string str) = String.length str.
Proof.
  intros Hr. rewrite renderQr_settles, Hr. split; [reflexivity|].
  apply length_list_byte_of_string.
Qed.

(** X15: for any other format, a data URL with one comma resolves to the
    base64 decoding of what follows the comma. *)
Theorem renderQr_png_bytes format mode qrData o pre b64 :
  format ≠ "svg" → comma_free pre = true → comma_free b64 = true →
  qrcode_run (renderQr_call format mode qrData o) = Resolved (pre +:+ "," +:+ b64) →
  renderQr format mode qrData o = Resolved (from_base64 b64).
Proof.
  intros Hf Hp Hb Hr. rewrite renderQr_settles, Hr.
  destruct (String.eqb_spec format "svg"); [contradiction|].
  by rewrite split_comma_1_data_url.
Qed.

(** X16: for any other format, a library result without a comma rejects
    with the wrapped [TypeError] of decoding [undefined]. *)
Theorem renderQr_png_without_comma format mode qrData o str :
  format ≠ "svg" → comma_free str = true →
  qrcode_run (renderQr_call format mode qrData o) = Resolved str →
  renderQr format mode qrData o = Rejected (qr_rejection buffer_from_undefined).
Proof.
  intros Hf Hc Hr. rewrite renderQr_settles, Hr.
  destruct (String.eqb_spec format "svg"); [contradiction|].
  apply split_comma_1_none_iff in Hc. by rewrite Hc.
Qed.

(** X17: a mode other than the string ["sjis"] has no effect: the result
    is the one of a request without a mode. *)
Theorem renderQr_mode_ignored format mode qrData o :
  mode ≠ Js.Str "sjis" →
  renderQr format mode qrData o = renderQr format Js.Undefined qrData o.
Proof.
  intros Hm. unfold renderQr.
  by rewrite (mode_not_sjis format mode qrData o Hm).
Qed.

End QrCoverage.

Section QrHandlerCoverage.
Context `{Collaborators}.

(** X18: a [text] that cannot be percent-decoded is answered 500 as the
    image of ["Chart Error: URI malformed"], before any rendering. *)
Theorem qr_uri_malformed req :
  Js.truthy (prop (query req) "text") = true →
  decodeURIComponent (Js.to_string (prop (query req) "text")) = None →
  get_qr req =
    Responded (mkResponse 500 [("Content-Type", HStr "image/png")]
      (text2png "Chart Error: URI malformed" (mkT2P 10 "#fff"))).
Proof. intros Ht Hd. unfold get_qr. by rewrite Ht, Hd. Qed.

(** X19: when the QR library rejects, the answer is a 500 of content type
    [image/png], for the [svg] format too, and the image reads
    ["Chart Error: Error: Could not generate QR"], a line feed, and the
    library's error. *)
Theorem qr_render_failure req qrData err :
  Js.truthy (prop (query req) "text") = true →
  decodeURIComponent (Js.to_string (prop (query req) "text")) = Some qrData →
  qrcode_run (renderQr_call (qr_format (query req)) (prop (query req) "mode")
                qrData (qrOpts (query req))) = Rejected err →
  get_qr req =
    Responded (mkResponse 500 [("Content-Type", HStr "image/png")]
      (text2png ("Chart Error: Error: Could not generate QR" +:+ LF
                 +:+ error_to_string err) (mkT2P 10 "#fff"))).
Proof.
  intros Ht Hd Hr. unfold get_qr. rewrite Ht, Hd. simpl.
  by rewrite renderQr_settles, Hr.
Qed.

(** X20: a successful [/qr] request of a format other than [svg] is
    answered 200 with content type [image/png], the one-week cache header,
    and as body and content length those of the decoded image. *)
Theorem qr_png_success req qrData pre b64 :
  Js.truthy (prop (query req) "text") = true →
  prop (query req) "format" ≠ Js.Str "svg" →
  decodeURIComponent (Js.to_string (prop (query req) "text")) = Some qrData →
  comma_free pre = true → comma_free b64 = true →
  qrcode_run (renderQr_call "png" (prop (query req) "mode") qrData
                (qrOpts (query req))) = Resolved (pre +:+ "," +:+ b64) →
  get_qr req =
    Responded (mkResponse 200
      [("Content-Type", HStr "image/png");
       ("Content-Length", HNum (length (from_base64 b64)));
       ("Cache-Control", HStr "public, max-age=604800")]
      (from_base64 b64)).
Proof.
  intros Ht Hf Hd Hp Hb Hr. unfold get_qr. rewrite Ht, Hd. simpl.
  destruct (qr_format_cases (query req)) as [[_ Hs]|[Hpng _]]; [contradiction|].
  rewrite Hpng, renderQr_settles, Hr. simpl.
  by rewrite split_comma_1_data_url.
Qed.

(** X21: the [/qr] handler always answers and never throws; the answer is
    a 200 of content type [image/png] or [image/svg], or a 500 of content
    type [image/png]. *)
Theorem qr_always_responds req :
  ∃ r, get_qr req = Responded r
       ∧ ((status r = 200
           ∧ (content_type r = Some (HStr "image/png")
              ∨ content_type r = Some (HStr "image/svg")))
          ∨ (status r = 500 ∧ content_type r = Some (HStr "image/png"))).
Proof.
  unfold get_qr.
  destruct (Js.truthy _); simpl; [|eexists; split; [reflexivity|by right]].
  destruct (decodeURIComponent _); [|eexists; split; [reflexivity|by right]].
  destruct (renderQr _ _ _ _); [|eexists; split; [reflexivity|by right]].
  eexists; split; [reflexivity|]. left. split; [reflexivity|].
  unfold content_type. simpl.
  destruct (qr_format_cases (query req)) as [[-> _]|[-> _]]; [by right|by left].
Qed.

End QrHandlerCoverage.

(** ** Further properties of admission *)

Section AdmissionCoverage.
Context `{Collaborators}.

(** X22: the limiter skips a request exactly when the [key] of its query
    string is a non-empty string that is in the key set; an array of keys,
    an empty key or a key in the body never bypasses. *)
Theorem skip_iff req :
  skip req = true ↔
  ∃ k, prop (query req) "key" = Js.Str k ∧ k ≠ "" ∧ k ∈ apiKeys.
Proof.
  split.
  - unfold skip. destruct (Js.truthy (prop (query req) "key")) eqn:Ht; [|done].
    destruct (prop (query req) "key") as [| |b|n|k|l|l]; try done.
    simpl. intros Hk. exists k. split; [done|]. split.
    + intros ->. discriminate Ht.
    + by apply bool_decide_eq_true in Hk.
  - intros (k & Hq & Hk & Hin). by apply (skip_privileged req k).
Qed.

Lemma routes_not_rejection req msg : routes req ≠ TooManyRequests msg.
Proof.
  unfold routes, get_chart, post_chart, chart_route, get_qr.
  repeat (match goal with
          | |- context [match ?x with _ => _ end] => destruct x
          end; simpl; try discriminate).
Qed.

(** X23: when [RATE_LIMIT_PER_MIN] is unset or empty there is no limiter:
    no request is rejected and the store is never written. *)
Theorem no_limit_configured env now store req :
  env = None ∨ env = Some "" →
  snd (app env now store req) = store
  ∧ ∀ msg, fst (app env now store req) ≠ TooManyRequests msg.
Proof.
  intros [->| ->]; unfold app; simpl; destruct (static req); simpl;
    (split; [done|]); intros msg; try discriminate; apply routes_not_rejection.
Qed.

(** X24: the store is written only for a request under [/chart] that no
    static file answers and the limiter does not skip, with a limiter
    configured. *)
Theorem store_written_only_for_chart env now store req :
  snd (app env now store req) ≠ store →
  (∃ o, limiter env = Some o)
  ∧ static req = false
  ∧ mount_match "/chart" (path req) = true
  ∧ skip req = false.
Proof.
  unfold app. destruct (static req); [done|].
  destruct (limiter env) as [o|] eqn:Ho; [|done].
  destruct (mount_match "/chart" (path req)); [|done].
  intros Hw. split; [by exists o|]. repeat split.
  destruct (skip req) eqn:Hs; [|done].
  destruct (limiter_options _ _ Ho) as (s & _ & _ & ->).
  rewrite check_skipped in Hw by done. done.
Qed.

(** A counted request under [/chart], in a window that is still open. *)
Lemma app_counted env o now store req s c :
  limiter env = Some o →
  static req = false → mount_match "/chart" (path req) = true →
  skip req = false →
  store !! ip req = Some (Limiter.mkWindow s c) → now - s < 60000 →
  app env now store req =
    (if Limiter.exceeds (S c) (Limiter.max o)
     then TooManyRequests limiter_message else routes req,
     <[ip req := Limiter.mkWindow s (S c)]> store).
Proof.
  intros Ho Hst Hm Hs Hw Ht. unfold app. rewrite Hst, Ho, Hm.
  destruct (limiter_options _ _ Ho) as (e & _ & _ & ->).
  unfold Limiter.check. simpl. rewrite Hs, Hw. simpl.
  destruct (Z.leb_spec 60000 (now - s)); [lia|]. simpl.
  by destruct (Limiter.exceeds _ _).
Qed.

(** X25: with the limiter as modelled from the spec, requests of one
    client under [/chart], none skipped, all arriving while the client's
    window is open: with [c] requests already counted and limit [m], the
    request at position [k] is answered by its route when
    [c + k + 1 <= m] and rejected with the limiter's message otherwise. *)
Theorem limit_enforced_in_window env o m id s reqs :
  limiter env = Some o → Limiter.max o = Js.Int m →
  Forall (λ tr, ip (snd tr) = id ∧ static (snd tr) = false
                ∧ mount_match "/chart" (path (snd tr)) = true
                ∧ skip (snd tr) = false ∧ fst tr - s < 60000) reqs →
  ∀ c store k t r,
    store !! id = Some (Limiter.mkWindow s c) →
    reqs !! k = Some (t, r) →
    fst (serve env store reqs) !! k =
      Some (if Z.of_nat (c + k + 1) <=? m
            then routes r else TooManyRequests limiter_message).
Proof.
  intros Ho Hm Hall. induction Hall as [|[t0 r0] reqs (Hid & Hst & Hmt & Hs & Ht) _ IH];
    intros c store k t r Hw Hk; [done|].
  simpl in *. subst id.
  rewrite (app_counted env o t0 store r0 s c) by done.
  destruct (serve env _ reqs) as [outs store''] eqn:Hserve.
  destruct k as [|k]; simpl in *.
  - injection Hk as <- <-. f_equal.
    unfold Limiter.exceeds. rewrite Hm.
    destruct (Z.ltb_spec m (Z.of_nat (S c)));
      destruct (Z.leb_spec (Z.of_nat (c + 0 + 1)) m); first [done | lia].
  - specialize (IH (S c) (<[ip r0 := Limiter.mkWindow s (S c)]> store) k t r).
    rewrite Hserve in IH. simpl in IH.
    rewrite IH by (by rewrite ?lookup_insert_eq).
    f_equal.
    destruct (Z.leb_spec (Z.of_nat (S (c + k + 1))) m);
      destruct (Z.leb_spec (Z.of_nat (c + S k + 1)) m); first [done | lia].
Qed.

(** X26: with the limiter as modelled from the spec and a limit of at
    least 1, a counted request that arrives 60 seconds or more after the
    start of the client's window is answered by its route whatever the
    count was, and opens a new window with a count of 1. *)
Theorem window_expiry_resets env o m now store req s c :
  limiter env = Some o → Limiter.max o = Js.Int m → 1 <= m →
  static req = false → mount_match "/chart" (path req) = true →
  skip req = false →
  store !! ip req = Some (Limiter.mkWindow s c) → 60000 <= now - s →
  app env now store req =
    (routes req, <[ip req := Limiter.mkWindow now 1]> store).
Proof.
  intros Ho Hm Hle Hst Hmt Hs Hw Ht. unfold app. rewrite Hst, Ho, Hmt.
  destruct (limiter_options _ _ Ho) as (e & _ & _ & Heq).
  rewrite Heq in Hm |- *. simpl in Hm.
  unfold Limiter.check. simpl. rewrite Hs, Hw. simpl.
  destruct (Z.leb_spec 60000 (now - s)); [|lia]. simpl.
  rewrite Hm. simpl. destruct (Z.ltb_spec m (Z.of_nat 1)); [lia|done].
Qed.

(** X27: whatever the request, the windows of the other clients are left
    as they were. *)
Theorem other_clients_untouched env now store req id :
  id ≠ ip req →
  snd (app env now store req) !! id = store !! id.
Proof.
  intros Hid. unfold app. destruct (static req); [done|].
  destruct (limiter env) as [o|]; [|done].
  destruct (mount_match "/chart" (path req)); [|done].
  unfold Limiter.check. destruct (Limiter.skip o req); [done|]. simpl.
  destruct (Limiter.exceeds _ _); simpl; by rewrite lookup_insert_ne.
Qed.

End AdmissionCoverage.

(** ** Concrete runs of the further properties *)

Lemma qr_size_kept_negative :
  Qr.width (qrOpts qr_query_negative) = Js.Int (-20).
Proof.
  apply (qr_size_kept qr_query_negative (-20)); [vm_compute; reflexivity | lia | lia].
Defined.

Lemma qr_defaults_text_only :
  qrOpts qr_query_text_only =
    Qr.mkOptions (Js.Int 4) (Js.Int 150) Js.Undefined
      (Qr.mkColor (Js.Str "000") (Js.Str "fff")) None.
Proof. apply (qr_defaults qr_query_text_only); vm_compute; reflexivity. Defined.

Lemma renderQr_rejection_shape_failing :
  name (qr_rejection (mkError "Error" "No input text")) = "Error"
  ∧ ∃ cause, message (qr_rejection (mkError "Error" "No input text"))
             = "Could not generate QR" +:+ LF +:+ cause.
Proof.
  apply (@renderQr_rejection_shape failing "svg" Js.Undefined "hello"
           (qrOpts qr_query_text_only)).
  reflexivity.
Defined.

Lemma renderQr_svg_bytes_sample :
  @renderQr sample "svg" Js.Undefined "hello" (qrOpts qr_query_svg)
    = Resolved (list_byte_of_string "<svg/>")
  ∧ length (list_byte_of_string "<svg/>") = 6%nat.
Proof.
  apply (@renderQr_svg_bytes sample Js.Undefined "hello" (qrOpts qr_query_svg) "<svg/>").
  reflexivity.
Defined.

Lemma renderQr_png_bytes_sample :
  @renderQr sample "png" Js.Undefined "hello" (qrOpts qr_query_text_only)
    = Resolved (list_byte_of_string "iVBORw0KGgo=").
Proof.
  apply (@renderQr_png_bytes sample "png" Js.Undefined "hello"
           (qrOpts qr_query_text_only) "data:image/png;base64" "iVBORw0KGgo=");
    [discriminate | reflexivity | reflexivity | reflexivity].
Defined.

Lemma renderQr_png_without_comma_failing :
  @renderQr failing "png" Js.Undefined "hello" (qrOpts qr_query_text_only)
    = Rejected (qr_rejection (mkError "TypeError" "The first argument must be a string")).
Proof.
  apply (@renderQr_png_without_comma failing "png" Js.Undefined "hello"
           (qrOpts qr_query_text_only) "no comma here");
    [discriminate | reflexivity | reflexivity].
Defined.

Lemma renderQr_mode_ignored_upper :
  @renderQr sample "png" (Js.Str "SJIS") "hello" (qrOpts qr_query_upper_svg)
  = @renderQr sample "png" Js.Undefined "hello" (qrOpts qr_query_upper_svg).
Proof.
  apply (@renderQr_mode_ignored sample "png" (Js.Str "SJIS")). discriminate.
Defined.

Lemma qr_uri_malformed_failing :
  @get_qr failing (get_request "/qr" {[ "text" := Js.Str "%" ]}) =
    Responded (mkResponse 500 [("Content-Type", HStr "image/png")]
      (list_byte_of_string "Chart Error: URI malformed")).
Proof.
  apply (@qr_uri_malformed failing (get_request "/qr" {[ "text" := Js.Str "%" ]}));
    vm_compute; reflexivity.
Defined.

Lemma qr_render_failure_failing :
  @get_qr failing (get_request "/qr" qr_query_svg) =
    Responded (mkResponse 500 [("Content-Type", HStr "image/png")]
      (list_byte_of_string
         ("Chart Error: Error: Could not generate QR" +:+ LF
          +:+ "Error: No input text"))).
Proof.
  apply (@qr_render_failure failing (get_request "/qr" qr_query_svg) "hello"
           (mkError "Error" "No input text")); vm_compute; reflexivity.
Defined.

Lemma qr_png_success_sample :
  @get_qr sample (get_request "/qr" qr_query_text_only) =
    Responded (mkResponse 200
      [("Content-Type", HStr "image/png");
       ("Content-Length", HNum 12);
       ("Cache-Control", HStr "public, max-age=604800")]
      (list_byte_of_string "iVBORw0KGgo=")).
Proof.
  apply (@qr_png_success sample (get_request "/qr" qr_query_text_only) "hello"
           "data:image/png;base64" "iVBORw0KGgo="); vm_compute; congruence.
Defined.

Lemma no_limit_configured_empty :
  snd (@app sample (Some "") 1000 busy_store key_in_body) = busy_store.
Proof.
  apply (@no_limit_configured sample (Some "") 1000 busy_store key_in_body).
  by right.
Defined.

Lemma store_written_only_for_chart_sample :
  @skip sample key_in_body = false.
Proof.
  apply (@store_written_only_for_chart sample start_script_limit 1000 busy_store
           key_in_body).
  intros Heq. apply (f_equal (λ st, st !! "203.0.113.7")) in Heq.
  vm_compute in Heq. discriminate Heq.
Defined.

Lemma limit_enforced_in_window_sample :
  fst (@serve sample (Some "2") {[ "203.0.113.7" := Limiter.mkWindow 0 0 ]}
         [(10, key_in_body); (20, key_in_body); (30, key_in_body)]) !! 2%nat
  = Some (TooManyRequests limiter_message).
Proof.
  apply (@limit_enforced_in_window sample (Some "2")
           (Limiter.mkOptions 60000 (Js.Int 2) limiter_message (@skip sample))
           2 "203.0.113.7" 0
           [(10, key_in_body); (20, key_in_body); (30, key_in_body)]
           eq_refl eq_refl) with (c := 0%nat) (k := 2%nat) (t := 30) (r := key_in_body).
  - repeat constructor; vm_compute; reflexivity.
  - vm_compute. reflexivity.
  - reflexivity.
Defined.

Lemma window_expiry_resets_sample :
  @app sample start_script_limit 70000 busy_store key_in_body =
    (@routes sample key_in_body,
     <["203.0.113.7" := Limiter.mkWindow 70000 1]> busy_store).
Proof.
  apply (@window_expiry_resets sample start_script_limit
           (Limiter.mkOptions 60000 (Js.Int 240) limiter_message (@skip sample))
           240 70000 busy_store key_in_body 0 240%nat);
    try reflexivity; try lia; vm_compute; congruence.
Defined.

Lemma other_clients_untouched_sample :
  snd (@app sample start_script_limit 1000 busy_store
         (mkRequest POST "/chart" ∅ ∅ "198.51.100.1")) !! "203.0.113.7"
  = busy_store !! "203.0.113.7".
Proof.
  apply (@other_clients_untouched sample). discriminate.
Defined.

Section LimitCoverage.
Context `{Collaborators}.

(** X28: a [RATE_LIMIT_PER_MIN] that is not empty and does not parse as an
    integer configures a limiter whose limit is [NaN]; with the limiter as
    modelled from the spec, it counts requests and rejects none. *)
Theorem unparsable_limit_never_rejects env o now store req :
  limiter env = Some o → Limiter.max o = Js.NaN →
  ∀ msg, fst (app env now store req) ≠ TooManyRequests msg.
Proof.
  intros Ho Hm msg. unfold app. rewrite Ho.
  destruct (static req); [discriminate|].
  destruct (mount_match "/chart" (path req)); [|apply routes_not_rejection].
  unfold Limiter.check. destruct (Limiter.skip o req); simpl.
  - apply routes_not_rejection.
  - rewrite Hm. simpl. apply routes_not_rejection.
Qed.

End LimitCoverage.

Lemma unparsable_limit_never_rejects_off :
  fst (@app sample (Some "off") 1000 busy_store key_in_body)
  ≠ TooManyRequests limiter_message.
Proof.
  apply (@unparsable_limit_never_rejects sample (Some "off")
           (Limiter.mkOptions 60000 Js.NaN limiter_message (@skip sample)));
    reflexivity.
Defined.

Lemma qr_format_svg_iff_upper :
  qr_format qr_query_upper_svg = "png".
Proof.
  apply (proj2 (qr_format_svg_iff qr_query_upper_svg)). vm_compute. congruence.
Defined.
